(** * Markdown export of a data contract

    A shallow embedding of [datacontract/export/markdown_converter.py]
    and the properties of its renderer.

    Python [str] values are modelled as [string]; a character outside
    ASCII (the bullet of an attribute) is held as its UTF-8 bytes.  A
    [Dict] is an association list in insertion order: the converter only
    iterates over its mappings. *)

From Stdlib Require Import String Ascii List Bool Arith ZArith Lia.
From Stdlib Require Import DecimalString.
Import ListNotations.
Local Open Scope string_scope.

(** ** Python string primitives used by the converter *)

Module Py.

Definition newline : ascii := "010"%char.

(** The one-character string ["\n"]. *)
Definition nl : string := String newline "".

(** [sep.join(parts)]. *)
Fixpoint join (sep : string) (parts : list string) : string :=
  match parts with
  | [] => ""
  | [x] => x
  | x :: rest => x ++ sep ++ join sep rest
  end.

(** [s * n]. *)
Fixpoint repeat_str (s : string) (n : nat) : string :=
  match n with
  | O => ""
  | S k => s ++ repeat_str s k
  end.

(** [s.replace(old, new)] for a one-character [old]. *)
Fixpoint replace (old : ascii) (new s : string) : string :=
  match s with
  | "" => ""
  | String c rest =>
      if Ascii.eqb c old then new ++ replace old new rest
      else String c (replace old new rest)
  end.

(** [s.split("\n")]: the lines of [s]; never the empty list. *)
Fixpoint lines (s : string) : list string :=
  match s with
  | "" => [""]
  | String c rest =>
      if Ascii.eqb c newline then "" :: lines rest
      else match lines rest with
           | [] => [String c ""]
           | l :: ls => String c l :: ls
           end
  end.

(** [s.startswith(p)]. *)
Fixpoint startswith (p s : string) : bool :=
  match p, s with
  | "", _ => true
  | String a p', String b s' => Ascii.eqb a b && startswith p' s'
  | String _ _, "" => false
  end.

(** [sub in s]. *)
Fixpoint contains (sub s : string) : bool :=
  startswith sub s ||
  match s with
  | "" => false
  | String _ rest => contains sub rest
  end.

(** The number of positions of [s] at which [sub] starts.  For a
    [sub] that cannot overlap itself this is [s.count(sub)]. *)
Fixpoint count (sub s : string) : nat :=
  match s with
  | "" => 0
  | String _ rest =>
      (if startswith sub s then 1 else 0) + count sub rest
  end.

(** [s] holds no newline: it is a single line. *)
Fixpoint one_line (s : string) : bool :=
  match s with
  | "" => true
  | String c rest => negb (Ascii.eqb c newline) && one_line rest
  end.

(** [str(n)] for an integer. *)
Definition str_int (n : Z) : string :=
  NilZero.string_of_int (Z.to_int n).

End Py.

(** ** Data model *)

(** The values an attribute can hold after [model_dump].  The converter
    looks at a value in three ways only: its truth value, whether it
    is the object [True], and [str(value)].  A value that is not None,
    a bool, an int or a str (a float, an enum, a nested dict or list) is
    kept as [VOther] with its truth value and its [str] form. *)
Inductive value : Type :=
| VNone
| VBool (b : bool)
| VInt (n : Z)
| VStr (s : string)
| VOther (truth : bool) (text : string).

(** [bool(value)]. *)
Definition truthy (v : value) : bool :=
  match v with
  | VNone => false
  | VBool b => b
  | VInt n => negb (Z.eqb n 0)
  | VStr s => negb (String.eqb s "")
  | VOther t _ => t
  end.

(** [value is True]. *)
Definition is_True (v : value) : bool :=
  match v with
  | VBool true => true
  | _ => false
  end.

(** [str(value)], which is what an f-string inserts. *)
Definition str (v : value) : string :=
  match v with
  | VNone => "None"
  | VBool true => "True"
  | VBool false => "False"
  | VInt n => Py.str_int n
  | VStr s => s
  | VOther _ text => text
  end.

(** [str(x)] of an optional string attribute: [None] prints as "None". *)
Definition str_opt (x : option string) : string :=
  match x with
  | Some s => s
  | None => "None"
  end.

(** [x or ''] of an optional string attribute. *)
Definition or_empty (x : option string) : string :=
  match x with
  | Some s => s
  | None => ""
  end.

(** A pydantic object as the converter sees it: the attributes that were
    set on it, in the order [model_dump(exclude_unset=True)] lists
    them.  An attribute that was never set is not in the list; one that
    was set to a falsy value is. *)
Definition BaseModel : Type := list (string * value).

Definition mem (k : string) (ks : list string) : bool :=
  existsb (String.eqb k) ks.

(** [obj.model_dump(exclude_unset=True, exclude=excluded_fields)]. *)
Definition model_dump (obj : BaseModel) (excluded_fields : list string)
  : list (string * value) :=
  filter (fun kv => negb (mem (fst kv) excluded_fields)) obj.

(** [d.get(k)] on the dumped dict. *)
Fixpoint get (k : string) (d : list (string * value)) : option value :=
  match d with
  | [] => None
  | (k', v) :: rest => if String.eqb k' k then Some v else get k rest
  end.

(** The dict that is left after [d.pop(k, None)]. *)
Definition remove (k : string) (d : list (string * value))
  : list (string * value) :=
  filter (fun kv => negb (String.eqb (fst kv) k)) d.

(** [description] is declared [str | None] on every class of the
    contract, so the popped value is a string or [None]. *)
Definition as_description (v : option value) : option string :=
  match v with
  | Some (VStr s) => Some s
  | _ => None
  end.

(** [Field]: the set attributes, and the attributes the converter reads
    by name. *)
#[warnings="-register-all"]
Inductive Field : Type := mkField {
  field_base : BaseModel;
  field_type : option string;
  field_fields : list (string * Field);
  field_items : option Field;
  field_keys : option Field;
  field_values : option Field
}.

Record Model : Type := mkModel {
  model_description : option string;
  model_fields : list (string * Field)
}.

Record Server : Type := mkServer {
  server_base : BaseModel;
  server_type : option string
}.

Record Definition_ : Type := mkDefinition {
  definition_base : BaseModel;
  definition_type : option string;
  definition_domain : option string
}.

Record ServiceLevel : Type := mkServiceLevel {
  availability : option BaseModel;
  retention : option BaseModel;
  latency : option BaseModel;
  freshness : option BaseModel;
  frequency : option BaseModel;
  support : option BaseModel;
  backup : option BaseModel
}.

Record DataContractSpecification : Type := mkDataContract {
  dc_id : option string;
  dc_info : option BaseModel;
  dc_servers : option (list (string * Server));
  dc_terms : option BaseModel;
  dc_models : list (string * Model);
  dc_definitions : option (list (string * Definition_));
  dc_servicelevels : option ServiceLevel
}.

(** ** The converter *)

Definition bullet : string :=
  String (ascii_of_nat 226) (String (ascii_of_nat 128)
    (String (ascii_of_nat 162) "")).

Definition description_to_markdown (description : option string) : string :=
  let d := match description with
           | Some s => if String.eqb s "" then "No description." else s
           | None => "No description."
           end in
  Py.replace Py.newline "<br>" d.

(** One element of the list comprehension [attributes]. *)
Definition attribute_to_markdown (attr : string) (v : value) : string :=
  if is_True v then bullet ++ " `" ++ attr ++ "`"
  else bullet ++ " **" ++ attr ++ ":** " ++ str v.

(** The list [attributes] built from the dumped dict. *)
Definition attributes (obj_model : list (string * value)) : list string :=
  map (fun kv => attribute_to_markdown (fst kv) (snd kv))
      (filter (fun kv => truthy (snd kv)) obj_model).

Definition obj_attributes_to_markdown
  (obj : option BaseModel) (excluded_fields : list string) : string :=
  match obj with
  | None => ""
  | Some o =>
      let obj_model := model_dump o excluded_fields in
      let description := as_description (get "description" obj_model) in
      let obj_model := remove "description" obj_model in
      "*" ++ description_to_markdown description ++ "*<br>"
          ++ Py.join "<br>" (attributes obj_model)
  end.

Definition server_row (entry : string * Server) : string :=
  let (server_name, server) := entry in
  "| " ++ server_name ++ " | " ++ or_empty (server_type server) ++ " | "
       ++ obj_attributes_to_markdown (Some (server_base server)) ["type"]
       ++ " |".

Definition servers_to_markdown
  (servers : option (list (string * Server))) : string :=
  match servers with
  | None | Some [] => ""
  | Some items =>
      Py.join Py.nl
        (["| Name | Type | Attributes |";
          "| ---- | ---- | ---------- |"] ++ map server_row items)%list
  end.

Definition field_excluded : list string :=
  ["type"; "fields"; "items"; "keys"; "values"].

(** The locals [tabs], [arrow] and [column_name] of [field_to_markdown]. *)
Definition tabs (level : nat) : string := Py.repeat_str "&numsp;" level.

Definition arrow (level : nat) : string :=
  if Nat.ltb 0 level then "&#x21b3;" else "".

Definition column_name (field_name : string) (level : nat) : string :=
  tabs level ++ arrow level ++ " " ++ field_name.

(** The first element of [rows]: the row of the field itself. *)
Definition field_row (field_name : string) (field : Field) (level : nat)
  : string :=
  let attributes :=
    obj_attributes_to_markdown (Some (field_base field)) field_excluded in
  "| " ++ column_name field_name level ++ " | "
       ++ str_opt (field_type field) ++ " | " ++ attributes ++ " |".

Fixpoint field_to_markdown (field_name : string) (field : Field) (level : nat)
  {struct field} : string :=
  let rows := [field_row field_name field level] in
  let rows :=
    match field_fields field with
    | [] => rows
    | fs =>
        (rows ++ [Py.join Py.nl
                    (map (fun nf => field_to_markdown (fst nf) (snd nf) (S level))
                         fs)])%list
    end in
  let rows :=
    match field_items field with
    | Some items => (rows ++ [field_to_markdown "items" items (S level)])%list
    | None => rows
    end in
  let rows :=
    match field_keys field with
    | Some keys => (rows ++ [field_to_markdown "keys" keys (S level)])%list
    | None => rows
    end in
  let rows :=
    match field_values field with
    | Some values => (rows ++ [field_to_markdown "values" values (S level)])%list
    | None => rows
    end in
  Py.join Py.nl rows.

Definition fields_to_markdown (fields : list (string * Field)) (level : nat)
  : string :=
  Py.join Py.nl
    (map (fun nf => field_to_markdown (fst nf) (snd nf) level) fields).

Definition model_to_markdown (model_name : string) (model : Model) : string :=
  let parts :=
    ["### " ++ model_name;
     "*" ++ description_to_markdown (model_description model) ++ "*";
     "";
     "| Field | Type | Attributes |";
     "| ----- | ---- | ---------- |"] in
  let parts := (parts ++ [fields_to_markdown (model_fields model) 0])%list in
  Py.join Py.nl parts.

Definition models_to_markdown (models : list (string * Model)) : string :=
  Py.join Py.nl (map (fun nm => model_to_markdown (fst nm) (snd nm)) models).

Definition definition_row (entry : string * Definition_) : string :=
  let (definition_name, definition) := entry in
  "| " ++ definition_name ++ " | " ++ or_empty (definition_type definition)
       ++ " | " ++ or_empty (definition_domain definition) ++ " | "
       ++ obj_attributes_to_markdown (Some (definition_base definition))
            ["name"; "type"; "domain"]
       ++ " |".

Definition definitions_to_markdown
  (definitions : option (list (string * Definition_))) : string :=
  match definitions with
  | None | Some [] => ""
  | Some items =>
      Py.join Py.nl
        (["| Name | Type | Domain | Attributes |";
          "| ---- | ---- | ------ | ---------- |"]
           ++ map definition_row items)%list
  end.

(** [result.extend([heading, attributes, ""])] under [if part:]. *)
Definition extend_part (result : list string) (heading : string)
  (part : option BaseModel) : list string :=
  match part with
  | Some _ =>
      (result ++ [heading; obj_attributes_to_markdown part []; ""])%list
  | None => result
  end.

Definition service_level_to_markdown (service_level : option ServiceLevel)
  : string :=
  match service_level with
  | None => ""
  | Some sl =>
      let result := [""] in
      let result := extend_part result "### Availability" (availability sl) in
      let result := extend_part result "### Retention" (retention sl) in
      let result := extend_part result "### Latency" (latency sl) in
      let result := extend_part result "### Freshness" (freshness sl) in
      let result := extend_part result "### Frequency" (frequency sl) in
      let result := extend_part result "### Support" (support sl) in
      let result := extend_part result "### Backup" (backup sl) in
      Py.join Py.nl result
  end.

Definition to_markdown (data_contract : DataContractSpecification) : string :=
  let markdown_parts :=
    ["# " ++ str_opt (dc_id data_contract);
     "## Info";
     obj_attributes_to_markdown (dc_info data_contract) [];
     "";
     "## Servers";
     servers_to_markdown (dc_servers data_contract);
     "";
     "## Terms";
     obj_attributes_to_markdown (dc_terms data_contract) [];
     "";
     "## Models";
     models_to_markdown (dc_models data_contract);
     "";
     "## Definitions";
     definitions_to_markdown (dc_definitions data_contract);
     "";
     "## Service levels";
     service_level_to_markdown (dc_servicelevels data_contract)] in
  Py.join Py.nl markdown_parts.

(** ** The rows of a field tree

    The fields a call of [field_to_markdown] renders, each with the level
    it is rendered at: the field itself, then the subtrees of its
    [fields] in mapping order, of [items], of [keys] and of [values]. *)

Definition node : Type := (string * Field * nat)%type.

Fixpoint field_nodes (field_name : string) (field : Field) (level : nat)
  {struct field} : list node :=
  (field_name, field, level)
    :: (flat_map (fun nf => field_nodes (fst nf) (snd nf) (S level))
                 (field_fields field)
        ++ match field_items field with
           | Some items => field_nodes "items" items (S level)
           | None => []
           end
        ++ match field_keys field with
           | Some keys => field_nodes "keys" keys (S level)
           | None => []
           end
        ++ match field_values field with
           | Some values => field_nodes "values" values (S level)
           | None => []
           end)%list.

Definition fields_nodes (fields : list (string * Field)) (level : nat)
  : list node :=
  flat_map (fun nf => field_nodes (fst nf) (snd nf) level) fields.

Definition child_nodes (child_name : string) (child : option Field)
  (level : nat) : list node :=
  match child with
  | Some c => field_nodes child_name c level
  | None => []
  end.

Definition node_name (x : node) : string := fst (fst x).
Definition node_field (x : node) : Field := snd (fst x).
Definition node_level (x : node) : nat := snd x.

Definition node_row (x : node) : string :=
  field_row (node_name x) (node_field x) (node_level x).

(** The label of a rendered row up to the field name. *)
Definition label_prefix (level : nat) : string := tabs level ++ arrow level.

(** The bullet the specification describes for a set attribute. *)
Definition flag_bullet (attr : string) : string :=
  bullet ++ " `" ++ attr ++ "`".

Definition value_bullet (attr : string) (v : value) : string :=
  bullet ++ " **" ++ attr ++ ":** " ++ str v.

(** The bullets an object is rendered with, in order. *)
Definition obj_bullets (o : BaseModel) (excluded_fields : list string)
  : list string :=
  attributes (remove "description" (model_dump o excluded_fields)).

(** What [field_to_markdown] appends to [rows] for the mapping [fields]
    and for one optional child. *)
Definition fields_block (fields : list (string * Field)) (level : nat)
  : list string :=
  match fields with
  | [] => []
  | _ :: _ => [fields_to_markdown fields level]
  end.

Definition child_block (child_name : string) (child : option Field)
  (level : nat) : list string :=
  match child with
  | Some c => [field_to_markdown child_name c level]
  | None => []
  end.

(** The description an object is rendered with. *)
Definition obj_description (o : BaseModel) (excluded_fields : list string)
  : option string :=
  as_description (get "description" (model_dump o excluded_fields)).

(** ** The example contract "orders" *)

Definition string_field : Field :=
  mkField [("type", VStr "string")] (Some "string") [] None None None.

Definition array_field : Field :=
  mkField [("type", VStr "array");
           ("items", VOther true "{'type': 'string'}")]
          (Some "array") [] (Some string_field) None None.

Definition order_model (description : option string) : Model :=
  mkModel description [("items", array_field)].

Definition orders_contract
  (info terms : option BaseModel)
  (servers : option (list (string * Server)))
  (definitions : option (list (string * Definition_)))
  (servicelevels : option ServiceLevel)
  (description : option string) : DataContractSpecification :=
  mkDataContract (Some "orders") info servers terms
    [("Order", order_model description)] definitions servicelevels.

Definition orders_minimal : DataContractSpecification :=
  orders_contract None None (Some []) (Some []) None None.

(** ** Vocabulary of the further properties *)

(** A field none of whose [fields], [items], [keys], [values] is
    populated. *)
Definition is_leaf (field : Field) : bool :=
  match field_fields field, field_items field,
        field_keys field, field_values field with
  | [], None, None, None => true
  | _, _, _, _ => false
  end.

(** The node [x], [k] levels deeper. *)
Definition deepen (k : nat) (x : node) : node :=
  (node_name x, node_field x, k + node_level x).

(** An attribute whose name and whose [str(value)] hold no newline. *)
Definition clean_attribute (kv : string * value) : bool :=
  Py.one_line (fst kv) && Py.one_line (str (snd kv)).

(** The seven parts [service_level_to_markdown] looks at, with their
    headings, in the order of its [if] blocks. *)
Definition service_level_parts (sl : ServiceLevel)
  : list (string * option BaseModel) :=
  [("### Availability", availability sl);
   ("### Retention", retention sl);
   ("### Latency", latency sl);
   ("### Freshness", freshness sl);
   ("### Frequency", frequency sl);
   ("### Support", support sl);
   ("### Backup", backup sl)].

(** The three elements one present part adds to [result]. *)
Definition part_section (hp : string * option BaseModel) : list string :=
  match snd hp with
  | Some _ => [fst hp; obj_attributes_to_markdown (snd hp) []; ""]
  | None => []
  end.

(** The five lines a model starts with. *)
Definition model_head (model_name : string) (model : Model) : list string :=
  ["### " ++ model_name;
   "*" ++ description_to_markdown (model_description model) ++ "*";
   "";
   "| Field | Type | Attributes |";
   "| ----- | ---- | ---------- |"].

(** An object none of whose attributes, the description apart, holds a
    newline in its name or in its value's string form. *)
Definition clean_object (o : BaseModel) : bool :=
  forallb (fun kv => String.eqb (fst kv) "description" || clean_attribute kv)
          o.

(** A server whose name, type and attributes hold no newline. *)
Definition clean_server (entry : string * Server) : bool :=
  Py.one_line (fst entry)
  && Py.one_line (or_empty (server_type (snd entry)))
  && clean_object (server_base (snd entry)).

Definition clean_definition (entry : string * Definition_) : bool :=
  Py.one_line (fst entry)
  && Py.one_line (or_empty (definition_type (snd entry)))
  && Py.one_line (or_empty (definition_domain (snd entry)))
  && clean_object (definition_base (snd entry)).

(** The service levels object on which no part is set. *)
Definition no_service_levels : ServiceLevel :=
  mkServiceLevel None None None None None None None.

(** ** Induction over field trees

    [Field] nests through the mapping [fields] and the optional children,
    so its induction principle is written by hand. *)

Definition on_child (P : Field -> Prop) (child : option Field) : Prop :=
  match child with
  | Some c => P c
  | None => True
  end.

Section FieldInduction.

Variable P : Field -> Prop.

Hypothesis step :
  forall base type fields items keys values,
    Forall (fun nf => P (snd nf)) fields ->
    on_child P items -> on_child P keys -> on_child P values ->
    P (mkField base type fields items keys values).

Fixpoint Field_tree_ind (field : Field) : P field :=
  match field with
  | mkField base type fields items keys values =>
      step base type fields items keys values
        ((fix all (l : list (string * Field))
            : Forall (fun nf => P (snd nf)) l :=
            match l with
            | [] => Forall_nil _
            | nf :: rest =>
                Forall_cons nf (Field_tree_ind (snd nf)) (all rest)
            end) fields)
        (match items as o return on_child P o with
         | Some c => Field_tree_ind c
         | None => I
         end)
        (match keys as o return on_child P o with
         | Some c => Field_tree_ind c
         | None => I
         end)
        (match values as o return on_child P o with
         | Some c => Field_tree_ind c
         | None => I
         end)
  end.

End FieldInduction.

(** ** Strings: append, join and lines *)

Section StringFacts.

Lemma sapp_nil_r (s : string) : s ++ "" = s.
Proof. induction s as [|c s IH]; simpl; [reflexivity | now rewrite IH]. Qed.

Lemma sapp_assoc (a b c : string) : (a ++ b) ++ c = a ++ (b ++ c).
Proof. induction a as [|x a IH]; simpl; [reflexivity | now rewrite IH]. Qed.

Lemma sapp_eq_nil (a b : string) : a ++ b = "" -> a = "" /\ b = "".
Proof. destruct a; simpl; [auto | discriminate]. Qed.

Lemma join_cons (sep x : string) (l : list string) :
  l <> [] -> Py.join sep (x :: l) = x ++ sep ++ Py.join sep l.
Proof. destruct l; [congruence | reflexivity]. Qed.

Lemma join_app (sep : string) (l1 l2 : list string) :
  l1 <> [] -> l2 <> [] ->
  Py.join sep (l1 ++ l2) = Py.join sep l1 ++ sep ++ Py.join sep l2.
Proof.
  induction l1 as [|x l1 IH]; intros H1 H2; [congruence|].
  destruct l1 as [|y l1].
  - simpl app. now rewrite join_cons.
  - change ((x :: y :: l1) ++ l2)%list with (x :: ((y :: l1) ++ l2))%list.
    rewrite join_cons by discriminate.
    rewrite IH by (discriminate || assumption).
    rewrite (join_cons sep x (y :: l1)) by discriminate.
    now rewrite !sapp_assoc.
Qed.

(** Joining joined blocks is joining all their elements, as long as
    no block is empty. *)
Lemma join_blocks (sep : string) (blocks : list (list string)) :
  Forall (fun b => b <> []) blocks ->
  Py.join sep (map (Py.join sep) blocks) = Py.join sep (concat blocks).
Proof.
  induction 1 as [|b blocks Hb Hbs IH]; [reflexivity|].
  destruct blocks as [|b' blocks].
  - simpl. now rewrite app_nil_r.
  - change (map (Py.join sep) (b :: b' :: blocks))
      with (Py.join sep b :: map (Py.join sep) (b' :: blocks)).
    rewrite join_cons by discriminate. rewrite IH.
    change (concat (b :: b' :: blocks))
      with (b ++ concat (b' :: blocks))%list.
    rewrite join_app; [reflexivity | assumption |].
    inversion Hbs as [|? ? Hb' _]; subst.
    simpl. destruct b'; [congruence | discriminate].
Qed.

Lemma lines_not_nil (s : string) : Py.lines s <> [].
Proof.
  induction s as [|c s IH]; simpl; [discriminate|].
  destruct (Ascii.eqb c Py.newline); [discriminate|].
  destruct (Py.lines s); discriminate.
Qed.

Lemma lines_app_nl (a b : string) :
  Py.lines (a ++ Py.nl ++ b) = (Py.lines a ++ Py.lines b)%list.
Proof.
  induction a as [|c a IH]; [reflexivity|].
  change (String c a ++ Py.nl ++ b) with (String c (a ++ Py.nl ++ b)).
  cbn [Py.lines]. rewrite IH.
  destruct (Ascii.eqb c Py.newline); [reflexivity|].
  pose proof (lines_not_nil a) as Ha.
  destruct (Py.lines a); [congruence | reflexivity].
Qed.

Lemma lines_join (parts : list string) :
  parts <> [] ->
  Py.lines (Py.join Py.nl parts) = concat (map Py.lines parts).
Proof.
  induction parts as [|x parts IH]; [congruence | intros _].
  destruct parts as [|y parts].
  - simpl. now rewrite app_nil_r.
  - rewrite join_cons by discriminate.
    rewrite lines_app_nl, IH by discriminate. reflexivity.
Qed.

Lemma lines_one_line (s : string) : Py.one_line s = true -> Py.lines s = [s].
Proof.
  induction s as [|c s IH]; simpl; [reflexivity|].
  destruct (Ascii.eqb c Py.newline); simpl; [discriminate|].
  intros H. now rewrite IH.
Qed.

Lemma one_line_app (a b : string) :
  Py.one_line (a ++ b) = Py.one_line a && Py.one_line b.
Proof.
  induction a as [|c a IH]; simpl; [reflexivity|].
  now rewrite IH, andb_assoc.
Qed.

Lemma replace_app (old : ascii) (new a b : string) :
  Py.replace old new (a ++ b)
  = Py.replace old new a ++ Py.replace old new b.
Proof.
  induction a as [|c a IH]; simpl; [reflexivity|].
  rewrite IH. destruct (Ascii.eqb c old); simpl;
    [now rewrite sapp_assoc | reflexivity].
Qed.

Lemma replace_one_line (s : string) :
  Py.one_line (Py.replace Py.newline "<br>" s) = true.
Proof.
  induction s as [|c s IH]; simpl; [reflexivity|].
  destruct (Ascii.eqb c Py.newline) eqn:E; simpl; [exact IH|].
  now rewrite E, IH.
Qed.

Lemma replace_not_nil (old : ascii) (new s : string) :
  new <> "" -> s <> "" -> Py.replace old new s <> "".
Proof.
  intros Hn Hs. destruct s as [|c s]; [congruence|]. simpl.
  destruct (Ascii.eqb c old); [|discriminate].
  intros H. apply sapp_eq_nil in H. tauto.
Qed.

Lemma replace_id (old : ascii) (new s : string) :
  Py.count (String old "") s = 0 -> Py.replace old new s = s.
Proof.
  induction s as [|c s IH]; simpl; [reflexivity|].
  rewrite (Ascii.eqb_sym old c).
  destruct (Ascii.eqb c old); simpl; [discriminate|].
  intros H. now rewrite IH.
Qed.

End StringFacts.

(** ** The renderer of a field tree lists its rows *)

Section FieldRows.

Lemma field_nodes_eq (field_name : string) (field : Field) (level : nat) :
  field_nodes field_name field level
  = ((field_name, field, level)
       :: fields_nodes (field_fields field) (S level)
       ++ child_nodes "items" (field_items field) (S level)
       ++ child_nodes "keys" (field_keys field) (S level)
       ++ child_nodes "values" (field_values field) (S level))%list.
Proof. destruct field; reflexivity. Qed.

Lemma field_nodes_not_nil (field_name : string) (field : Field) (level : nat) :
  map node_row (field_nodes field_name field level) <> [].
Proof. rewrite field_nodes_eq. discriminate. Qed.

Lemma field_to_markdown_eq (field_name : string) (field : Field) (level : nat) :
  field_to_markdown field_name field level
  = Py.join Py.nl
      ([field_row field_name field level]
         ++ match field_fields field with
            | [] => []
            | fs => [fields_to_markdown fs (S level)]
            end
         ++ match field_items field with
            | Some c => [field_to_markdown "items" c (S level)]
            | None => []
            end
         ++ match field_keys field with
            | Some c => [field_to_markdown "keys" c (S level)]
            | None => []
            end
         ++ match field_values field with
            | Some c => [field_to_markdown "values" c (S level)]
            | None => []
            end)%list.
Proof.
  destruct field as [b t fs it ks vs].
  destruct fs, it, ks, vs; reflexivity.
Qed.

Lemma fields_rows (fields : list (string * Field)) (level : nat) :
  Forall (fun nf => forall n l,
            field_to_markdown n (snd nf) l
            = Py.join Py.nl (map node_row (field_nodes n (snd nf) l)))
         fields ->
  fields_to_markdown fields level
  = Py.join Py.nl (map node_row (fields_nodes fields level)).
Proof.
  intros H. unfold fields_to_markdown, fields_nodes.
  rewrite flat_map_concat_map, concat_map, map_map.
  rewrite <- join_blocks.
  - rewrite map_map. f_equal. apply map_ext_in. intros nf Hin.
    rewrite Forall_forall in H. now apply H.
  - apply Forall_forall. intros b Hb. apply in_map_iff in Hb.
    destruct Hb as [nf [<- _]]. apply field_nodes_not_nil.
Qed.

Lemma child_rows (child_name : string) (child : option Field) (level : nat) :
  on_child (fun c => forall n l,
              field_to_markdown n c l
              = Py.join Py.nl (map node_row (field_nodes n c l))) child ->
  match child with
  | Some c => [field_to_markdown child_name c level]
  | None => []
  end
  = map (Py.join Py.nl)
      match child with
      | Some c => [map node_row (field_nodes child_name c level)]
      | None => []
      end.
Proof. destruct child; simpl; intros H; [now rewrite H | reflexivity]. Qed.

(** [field_to_markdown] joins the rows of the nodes of the tree, the
    parent first. *)
Lemma field_to_markdown_rows (field : Field) :
  forall field_name level,
    field_to_markdown field_name field level
    = Py.join Py.nl (map node_row (field_nodes field_name field level)).
Proof.
  induction field as [b t fs it ks vs Hfs Hit Hks Hvs] using Field_tree_ind.
  intros field_name level.
  rewrite field_to_markdown_eq, field_nodes_eq. cbn [field_fields field_items
    field_keys field_values].
  rewrite (child_rows "items" it _ Hit), (child_rows "keys" ks _ Hks),
    (child_rows "values" vs _ Hvs).
  pose proof (fields_rows fs (S level) Hfs) as Efs.
  assert (Eb : match fs with
               | [] => []
               | nf :: rest => [fields_to_markdown (nf :: rest) (S level)]
               end
               = map (Py.join Py.nl)
                   match fs with
                   | [] => []
                   | _ :: _ => [map node_row (fields_nodes fs (S level))]
                   end).
  { destruct fs; [reflexivity|]. simpl map. now rewrite Efs. }
  rewrite Eb. clear Eb Efs.
  change [field_row field_name (mkField b t fs it ks vs) level]
    with (map (Py.join Py.nl)
            [[node_row (field_name, mkField b t fs it ks vs, level)]]).
  rewrite <- !map_app, join_blocks.
  - f_equal. cbn [map]. rewrite !map_app.
    destruct fs, it, ks, vs;
      cbn [concat child_nodes app map fields_nodes flat_map];
      rewrite ?app_nil_r; reflexivity.
  - repeat (apply Forall_app; split).
    + repeat constructor. discriminate.
    + destruct fs as [|[n f] fs]; repeat constructor.
      unfold fields_nodes. cbn [flat_map fst snd]. rewrite map_app.
      intros H. apply app_eq_nil in H. destruct H as [H _].
      now apply field_nodes_not_nil in H.
    + destruct it; repeat constructor. apply field_nodes_not_nil.
    + destruct ks; repeat constructor. apply field_nodes_not_nil.
    + destruct vs; repeat constructor. apply field_nodes_not_nil.
Qed.

Lemma fields_to_markdown_rows (fields : list (string * Field)) (level : nat) :
  fields_to_markdown fields level
  = Py.join Py.nl (map node_row (fields_nodes fields level)).
Proof.
  apply fields_rows, Forall_forall. intros nf _ n l.
  apply field_to_markdown_rows.
Qed.

End FieldRows.

(** ** Attributes of an object *)

Section Attributes.

Lemma description_to_markdown_not_nil (description : option string) :
  description_to_markdown description <> "".
Proof.
  unfold description_to_markdown.
  apply replace_not_nil; [discriminate|].
  destruct description as [s|]; [|discriminate].
  destruct (String.eqb_spec s ""); [discriminate | assumption].
Qed.

Lemma description_to_markdown_one_line (description : option string) :
  Py.one_line (description_to_markdown description) = true.
Proof. apply replace_one_line. Qed.

Lemma obj_attributes_to_markdown_eq (o : BaseModel) (excluded : list string) :
  obj_attributes_to_markdown (Some o) excluded
  = "*" ++ description_to_markdown (obj_description o excluded) ++ "*<br>"
        ++ Py.join "<br>" (obj_bullets o excluded).
Proof. reflexivity. Qed.

Lemma get_model_dump (k : string) (o : BaseModel) (excluded : list string) :
  mem k excluded = false -> get k (model_dump o excluded) = get k o.
Proof.
  intros Hk. induction o as [|[k' v] o IH]; [reflexivity|].
  unfold model_dump in *. cbn [filter fst get].
  destruct (String.eqb_spec k' k) as [->|Hne].
  - rewrite Hk. cbn [negb get]. now rewrite String.eqb_refl.
  - destruct (negb (mem k' excluded)); [|exact IH].
    cbn [get]. destruct (String.eqb_spec k' k); [contradiction | exact IH].
Qed.

Lemma get_model_dump_none (k : string) (o : BaseModel) (excluded : list string) :
  get k o = None -> get k (model_dump o excluded) = None.
Proof.
  induction o as [|[k' v] o IH]; [reflexivity|].
  unfold model_dump in *. cbn [filter fst get].
  destruct (String.eqb k' k) eqn:E; [discriminate|]. intros H.
  destruct (negb (mem k' excluded)); [|now apply IH].
  cbn [get]. rewrite E. now apply IH.
Qed.

Lemma in_dumped (o : BaseModel) (excluded : list string)
  (attr : string) (v : value) :
  In (attr, v) o -> attr <> "description" -> mem attr excluded = false ->
  In (attr, v) (remove "description" (model_dump o excluded)).
Proof.
  intros Hin Hd He. unfold remove, model_dump.
  apply filter_In; split.
  - apply filter_In; split; [assumption|]. cbn [fst]. now rewrite He.
  - cbn [fst]. apply negb_true_iff. now apply String.eqb_neq.
Qed.

Lemma bullets_from_set (o : BaseModel) (excluded : list string) (b : string) :
  In b (obj_bullets o excluded) ->
  exists attr v,
    In (attr, v) o /\ truthy v = true /\ attr <> "description"
    /\ mem attr excluded = false /\ b = attribute_to_markdown attr v.
Proof.
  unfold obj_bullets, attributes, remove, model_dump. intros H.
  apply in_map_iff in H. destruct H as [[attr v] [<- H]].
  apply filter_In in H. destruct H as [H Ht].
  apply filter_In in H. destruct H as [H Hd].
  apply filter_In in H. destruct H as [H He].
  cbn [fst snd] in *. exists attr, v.
  apply negb_true_iff in Hd, He. apply String.eqb_neq in Hd. auto.
Qed.

Lemma attributes_in (d : list (string * value)) (attr : string) (v : value) :
  In (attr, v) d -> truthy v = true ->
  exists before after,
    attributes d = (before ++ [attribute_to_markdown attr v] ++ after)%list.
Proof.
  intros Hin Ht. unfold attributes.
  assert (Hf : In (attr, v) (filter (fun kv => truthy (snd kv)) d))
    by (apply filter_In; split; assumption).
  apply in_split in Hf. destruct Hf as [l1 [l2 E]]. rewrite E.
  rewrite map_app.
  exists (map (fun kv => attribute_to_markdown (fst kv) (snd kv)) l1),
         (map (fun kv => attribute_to_markdown (fst kv) (snd kv)) l2).
  reflexivity.
Qed.

(** A set attribute with a truthy value has its bullet among the
    bullets joined after the description. *)
Lemma truthy_rendered (o : BaseModel) (excluded : list string)
  (attr : string) (v : value) :
  In (attr, v) o -> attr <> "description" -> mem attr excluded = false ->
  truthy v = true ->
  exists before after,
    obj_bullets o excluded
    = (before ++ [attribute_to_markdown attr v] ++ after)%list.
Proof.
  intros Hin Hd He Ht.
  exact (attributes_in _ attr v (in_dumped o excluded attr v Hin Hd He) Ht).
Qed.

Lemma attribute_flag (attr : string) :
  attribute_to_markdown attr (VBool true) = flag_bullet attr.
Proof. reflexivity. Qed.

Lemma attribute_value (attr : string) (v : value) :
  v <> VBool true -> attribute_to_markdown attr v = value_bullet attr v.
Proof.
  intros H. unfold attribute_to_markdown.
  destruct v as [|[|]|n|s|t x]; try reflexivity. congruence.
Qed.

Lemma get_skip (k attr : string) (v : value) (d1 d2 : list (string * value)) :
  attr <> k ->
  get k (d1 ++ (attr, v) :: d2)%list = get k (d1 ++ d2)%list.
Proof.
  intros Hne. induction d1 as [|[k' w] d1 IH]; cbn [app get].
  - destruct (String.eqb_spec attr k); [contradiction | reflexivity].
  - now rewrite IH.
Qed.

(** A set attribute with a falsy value leaves the output as it is
    without the attribute. *)
Lemma falsy_omitted (o1 o2 : BaseModel) (excluded : list string)
  (attr : string) (v : value) :
  attr <> "description" -> truthy v = false ->
  obj_attributes_to_markdown (Some (o1 ++ (attr, v) :: o2)%list) excluded
  = obj_attributes_to_markdown (Some (o1 ++ o2)%list) excluded.
Proof.
  intros Hd Hf. rewrite !obj_attributes_to_markdown_eq.
  unfold obj_bullets, obj_description, model_dump, remove, attributes.
  rewrite !filter_app. cbn [filter fst].
  destruct (negb (mem attr excluded)); [|reflexivity].
  rewrite get_skip by assumption.
  cbn [filter fst snd].
  replace (negb (String.eqb attr "description")) with true
    by (symmetry; apply negb_true_iff; now apply String.eqb_neq).
  cbn [filter snd]. now rewrite Hf.
Qed.

End Attributes.

(** ** Indentation of a row label *)

Section Indentation.

Lemma count_numsp (level : nat) :
  Py.count "&numsp;" (tabs level ++ "&#x21b3;") = level.
Proof.
  induction level as [|level IH]; [reflexivity|].
  change (tabs (S level)) with ("&numsp;" ++ tabs level).
  rewrite sapp_assoc. cbn. now rewrite IH.
Qed.

Lemma count_arrow (level : nat) :
  Py.count "&#x21b3;" (tabs level ++ "&#x21b3;") = 1.
Proof.
  induction level as [|level IH]; [reflexivity|].
  change (tabs (S level)) with ("&numsp;" ++ tabs level).
  rewrite sapp_assoc. cbn. exact IH.
Qed.

Lemma levels_ge (field : Field) :
  forall field_name level,
    Forall (fun x => level <= node_level x)
           (field_nodes field_name field level).
Proof.
  induction field as [b t fs it ks vs Hfs Hit Hks Hvs] using Field_tree_ind.
  intros field_name level. rewrite field_nodes_eq.
  cbn [field_fields field_items field_keys field_values].
  constructor; [cbn; lia|].
  assert (up : forall l, Forall (fun x : node => S level <= node_level x) l ->
                         Forall (fun x : node => level <= node_level x) l).
  { intros l. apply Forall_impl. intros; lia. }
  repeat (apply Forall_app; split).
  - apply up. unfold fields_nodes. apply Forall_flat_map.
    revert Hfs. apply Forall_impl. intros nf H. apply H.
  - destruct it; [apply up, Hit | constructor].
  - destruct ks; [apply up, Hks | constructor].
  - destruct vs; [apply up, Hvs | constructor].
Qed.

Lemma filter_deeper (level : nat) (l : list node) :
  Forall (fun x => S level <= node_level x) l ->
  filter (fun x => Nat.eqb (node_level x) level) l = [].
Proof.
  induction 1 as [|x l Hx _ IH]; [reflexivity|]. cbn [filter].
  destruct (Nat.eqb_spec (node_level x) level); [lia | exact IH].
Qed.

Lemma filter_top (field_name : string) (field : Field) (level : nat) :
  filter (fun x => Nat.eqb (node_level x) level)
         (field_nodes field_name field level)
  = [(field_name, field, level)].
Proof.
  rewrite field_nodes_eq. cbn [filter node_level snd].
  rewrite Nat.eqb_refl. f_equal. apply filter_deeper.
  repeat (apply Forall_app; split).
  - unfold fields_nodes. apply Forall_flat_map, Forall_forall.
    intros nf _. apply levels_ge.
  - destruct (field_items field); [apply levels_ge | constructor].
  - destruct (field_keys field); [apply levels_ge | constructor].
  - destruct (field_values field); [apply levels_ge | constructor].
Qed.

Lemma filter_fields_top (fields : list (string * Field)) (level : nat) :
  filter (fun x => Nat.eqb (node_level x) level) (fields_nodes fields level)
  = map (fun nf => (fst nf, snd nf, level)) fields.
Proof.
  induction fields as [|nf fields IH]; [reflexivity|].
  unfold fields_nodes in *. cbn [flat_map map].
  now rewrite filter_app, filter_top, IH.
Qed.

End Indentation.

(** ** The document *)

Section Document.

Lemma to_markdown_eq (dc : DataContractSpecification) :
  to_markdown dc
  = "# " ++ str_opt (dc_id dc) ++ Py.nl
    ++ "## Info" ++ Py.nl
    ++ obj_attributes_to_markdown (dc_info dc) [] ++ Py.nl ++ Py.nl
    ++ "## Servers" ++ Py.nl
    ++ servers_to_markdown (dc_servers dc) ++ Py.nl ++ Py.nl
    ++ "## Terms" ++ Py.nl
    ++ obj_attributes_to_markdown (dc_terms dc) [] ++ Py.nl ++ Py.nl
    ++ "## Models" ++ Py.nl
    ++ models_to_markdown (dc_models dc) ++ Py.nl ++ Py.nl
    ++ "## Definitions" ++ Py.nl
    ++ definitions_to_markdown (dc_definitions dc) ++ Py.nl ++ Py.nl
    ++ "## Service levels" ++ Py.nl
    ++ service_level_to_markdown (dc_servicelevels dc).
Proof.
  unfold to_markdown. cbn [Py.join].
  rewrite !sapp_assoc. reflexivity.
Qed.

Lemma to_markdown_lines (dc : DataContractSpecification) :
  Py.lines (to_markdown dc)
  = (Py.lines ("# " ++ str_opt (dc_id dc))
     ++ ["## Info"]
     ++ Py.lines (obj_attributes_to_markdown (dc_info dc) [])
     ++ [""; "## Servers"]
     ++ Py.lines (servers_to_markdown (dc_servers dc))
     ++ [""; "## Terms"]
     ++ Py.lines (obj_attributes_to_markdown (dc_terms dc) [])
     ++ [""; "## Models"]
     ++ Py.lines (models_to_markdown (dc_models dc))
     ++ [""; "## Definitions"]
     ++ Py.lines (definitions_to_markdown (dc_definitions dc))
     ++ [""; "## Service levels"]
     ++ Py.lines (service_level_to_markdown (dc_servicelevels dc)))%list.
Proof.
  unfold to_markdown. rewrite lines_join by discriminate.
  cbn [map concat]. rewrite app_nil_r. reflexivity.
Qed.

Lemma order_model_lines (description : option string) :
  Py.lines (models_to_markdown [("Order", order_model description)])
  = ["### Order";
     "*" ++ description_to_markdown description ++ "*";
     "";
     "| Field | Type | Attributes |";
     "| ----- | ---- | ---------- |";
     "|  items | array | *No description.*<br> |";
     "| &numsp;&#x21b3; items | string | *No description.*<br> |"].
Proof.
  change (models_to_markdown [("Order", order_model description)])
    with (Py.join Py.nl
            ["### Order";
             "*" ++ description_to_markdown description ++ "*";
             "";
             "| Field | Type | Attributes |";
             "| ----- | ---- | ---------- |";
             fields_to_markdown [("items", array_field)] 0]).
  rewrite lines_join by discriminate. cbn [map concat].
  rewrite (lines_one_line ("*" ++ description_to_markdown description ++ "*")).
  - reflexivity.
  - rewrite !one_line_app, description_to_markdown_one_line. reflexivity.
Qed.

End Document.

(** ** The claims *)

(** C1, as amended: for the contract with id "orders" and the single
    model "Order" whose single field "items" has type "array", no scalar
    attributes, and an [items] child of type "string" with no scalar
    attributes, whatever the other sections hold, the lines of the
    rendered document contain the heading "## Models", then "### Order",
    the description line, a blank line, the table header and its
    separator, the parent row "|  items | array | *No description.*<br> |"
    and the child row
    "| &numsp;&#x21b3; items | string | *No description.*<br> |",
    followed by a blank line and "## Definitions". *)
Theorem C1_orders_models_section :
  forall info terms servers definitions servicelevels description,
  exists before after,
    Py.lines (to_markdown (orders_contract info terms servers definitions
                             servicelevels description))
    = (before
       ++ ["## Models";
           "### Order";
           ("*" ++ description_to_markdown description ++ "*")%string;
           "";
           "| Field | Type | Attributes |";
           "| ----- | ---- | ---------- |";
           "|  items | array | *No description.*<br> |";
           "| &numsp;&#x21b3; items | string | *No description.*<br> |";
           "";
           "## Definitions"]
       ++ after)%list.
Proof.
  intros. rewrite to_markdown_lines.
  unfold orders_contract.
  cbn [dc_id dc_info dc_servers dc_terms dc_models dc_definitions
       dc_servicelevels].
  rewrite order_model_lines.
  exists (Py.lines ("# " ++ str_opt (Some "orders"))
          ++ ["## Info"]
          ++ Py.lines (obj_attributes_to_markdown info [])
          ++ [""; "## Servers"]
          ++ Py.lines (servers_to_markdown servers)
          ++ [""; "## Terms"]
          ++ Py.lines (obj_attributes_to_markdown terms [])
          ++ [""])%list,
         (Py.lines (definitions_to_markdown definitions)
          ++ [""; "## Service levels"]
          ++ Py.lines (service_level_to_markdown servicelevels))%list.
  rewrite <- !app_assoc. reflexivity.
Qed.

(** C1 as stated fails on the minimal "orders" contract: no line of the
    output is "| items | array |  |". *)
Lemma C1_counterexample :
  ~ (In "## Models" (Py.lines (to_markdown orders_minimal))
     /\ In "### Order" (Py.lines (to_markdown orders_minimal))
     /\ In "| Field | Type | Attributes |"
           (Py.lines (to_markdown orders_minimal))
     /\ In "| items | array |  |" (Py.lines (to_markdown orders_minimal))
     /\ In "|&numsp;&#x21b3; items | string |  |"
           (Py.lines (to_markdown orders_minimal))).
Proof.
  intros [_ [_ [_ [H _]]]]. vm_compute in H.
  repeat (destruct H as [H|H]; [discriminate H|]). exact H.
Qed.

(** C4, as amended: for every contract the output is the title line,
    directly followed by the heading "## Info", and then the headings
    "## Servers", "## Terms", "## Models", "## Definitions" and
    "## Service levels" in this order; each heading is followed by its
    body, whatever the body is, also the empty string, and each of the
    sections after "## Info" is separated from the one before it by an
    empty line. *)
Theorem C4_section_headings :
  forall dc : DataContractSpecification,
    to_markdown dc
    = "# " ++ str_opt (dc_id dc) ++ Py.nl
      ++ "## Info" ++ Py.nl
      ++ obj_attributes_to_markdown (dc_info dc) [] ++ Py.nl ++ Py.nl
      ++ "## Servers" ++ Py.nl
      ++ servers_to_markdown (dc_servers dc) ++ Py.nl ++ Py.nl
      ++ "## Terms" ++ Py.nl
      ++ obj_attributes_to_markdown (dc_terms dc) [] ++ Py.nl ++ Py.nl
      ++ "## Models" ++ Py.nl
      ++ models_to_markdown (dc_models dc) ++ Py.nl ++ Py.nl
      ++ "## Definitions" ++ Py.nl
      ++ definitions_to_markdown (dc_definitions dc) ++ Py.nl ++ Py.nl
      ++ "## Service levels" ++ Py.nl
      ++ service_level_to_markdown (dc_servicelevels dc)
    /\ Py.lines (to_markdown dc)
       = (Py.lines ("# " ++ str_opt (dc_id dc))
          ++ ["## Info"]
          ++ Py.lines (obj_attributes_to_markdown (dc_info dc) [])
          ++ [""; "## Servers"]
          ++ Py.lines (servers_to_markdown (dc_servers dc))
          ++ [""; "## Terms"]
          ++ Py.lines (obj_attributes_to_markdown (dc_terms dc) [])
          ++ [""; "## Models"]
          ++ Py.lines (models_to_markdown (dc_models dc))
          ++ [""; "## Definitions"]
          ++ Py.lines (definitions_to_markdown (dc_definitions dc))
          ++ [""; "## Service levels"]
          ++ Py.lines (service_level_to_markdown (dc_servicelevels dc)))%list.
Proof.
  intros dc. split; [apply to_markdown_eq | apply to_markdown_lines].
Qed.

(** C4 as stated, with the title among the sections, fails: no empty
    line separates the title from "## Info". *)
Lemma C4_counterexample :
  Py.lines (to_markdown orders_minimal)
  = ["# orders"; "## Info"; ""; ""; "## Servers"; ""; ""; "## Terms"; "";
     ""; "## Models"; "### Order"; "*No description.*"; "";
     "| Field | Type | Attributes |"; "| ----- | ---- | ---------- |";
     "|  items | array | *No description.*<br> |";
     "| &numsp;&#x21b3; items | string | *No description.*<br> |"; "";
     "## Definitions"; ""; ""; "## Service levels"; ""]
  /\ nth 1 (Py.lines (to_markdown orders_minimal)) "" <> ""
  /\ Py.contains ("# orders" ++ Py.nl ++ Py.nl) (to_markdown orders_minimal)
     = false.
Proof.
  split; [reflexivity|]. split; [discriminate | reflexivity].
Qed.

(** C5: [servers_to_markdown] and [definitions_to_markdown] return the
    empty string for an absent and for an empty mapping, and for no
    other: no header row stands alone. *)
Theorem C5_empty_mapping_empty_string :
  servers_to_markdown None = ""
  /\ servers_to_markdown (Some []) = ""
  /\ definitions_to_markdown None = ""
  /\ definitions_to_markdown (Some []) = ""
  /\ (forall entry rest, servers_to_markdown (Some (entry :: rest)) <> "")
  /\ (forall entry rest, definitions_to_markdown (Some (entry :: rest)) <> "").
Proof.
  repeat split; try reflexivity; intros entry rest; discriminate.
Qed.

(** C2: every field that [fields_to_markdown] renders from the fields of
    a model, at nesting depth [d], has the row
    "| " ++ prefix ++ " " ++ name ++ ..., where the prefix holds exactly
    [d] markers "&numsp;" and exactly one glyph "&#x21b3;" when [d > 0],
    and is empty, with neither, when [d = 0]. *)
Theorem C2_label_indentation :
  forall (fields : list (string * Field))
         (name : string) (field : Field) (d : nat),
    In (name, field, d) (fields_nodes fields 0) ->
    fields_to_markdown fields 0
    = Py.join Py.nl (map node_row (fields_nodes fields 0))
    /\ (exists cells,
          node_row (name, field, d)
          = "| " ++ label_prefix d ++ " " ++ name ++ cells)
    /\ (0 < d ->
        Py.count "&numsp;" (label_prefix d) = d
        /\ Py.count "&#x21b3;" (label_prefix d) = 1)
    /\ (d = 0 ->
        label_prefix d = ""
        /\ Py.count "&numsp;" (label_prefix d) = 0
        /\ Py.count "&#x21b3;" (label_prefix d) = 0).
Proof.
  intros fields name field d _. split; [apply fields_to_markdown_rows|].
  split; [|split].
  - unfold node_row, field_row, column_name, label_prefix.
    cbn [node_name node_field node_level fst snd].
    eexists. rewrite !sapp_assoc. reflexivity.
  - intros Hd. destruct d as [|d]; [lia|].
    unfold label_prefix.
    change (arrow (S d)) with "&#x21b3;".
    split; [apply count_numsp | apply count_arrow].
  - intros ->. repeat split; reflexivity.
Qed.

Lemma C2_witness :
  In ("items", string_field, 1) (fields_nodes [("items", array_field)] 0)
  /\ Py.count "&numsp;" (label_prefix 1) = 1
  /\ Py.count "&#x21b3;" (label_prefix 1) = 1.
Proof.
  assert (H : In ("items", string_field, 1)
                 (fields_nodes [("items", array_field)] 0))
    by (simpl; auto).
  split; [exact H|].
  apply (C2_label_indentation [("items", array_field)]
           "items" string_field 1 H).
  lia.
Defined.

(** C3, as amended: the output of [obj_attributes_to_markdown] is the
    emphasized description, "<br>", and the bullets joined by "<br>".
    For an attribute that was set on the object, other than description
    and the excluded fields, and whose value is truthy, a bullet is among
    them: the name-only flag bullet when the value is the boolean true,
    otherwise the bold name followed by the value's string form.  An
    attribute set to a falsy value (false, 0, the empty string, None)
    gets no bullet: the output is that of the object without it. *)
Theorem C3_truthy_attribute_bullet :
  forall (o : BaseModel) (excluded : list string) (attr : string) (v : value),
    In (attr, v) o -> attr <> "description" -> mem attr excluded = false ->
    obj_attributes_to_markdown (Some o) excluded
    = "*" ++ description_to_markdown (obj_description o excluded) ++ "*<br>"
          ++ Py.join "<br>" (obj_bullets o excluded)
    /\ (v = VBool true -> In (flag_bullet attr) (obj_bullets o excluded))
    /\ (v <> VBool true -> truthy v = true ->
        In (value_bullet attr v) (obj_bullets o excluded))
    /\ (truthy v = false ->
        exists o1 o2,
          o = (o1 ++ (attr, v) :: o2)%list
          /\ obj_attributes_to_markdown (Some o) excluded
             = obj_attributes_to_markdown (Some (o1 ++ o2)%list) excluded).
Proof.
  intros o excluded attr v Hin Hd He.
  split; [apply obj_attributes_to_markdown_eq|].
  split; [|split].
  - intros ->.
    destruct (truthy_rendered o excluded attr (VBool true) Hin Hd He eq_refl)
      as [before [after E]].
    rewrite E, <- attribute_flag. apply in_or_app. right. now left.
  - intros Hv Ht.
    destruct (truthy_rendered o excluded attr v Hin Hd He Ht)
      as [before [after E]].
    rewrite E, <- (attribute_value attr v Hv).
    apply in_or_app. right. now left.
  - intros Hf. destruct (in_split _ _ Hin) as [o1 [o2 E]].
    exists o1, o2. split; [exact E|]. rewrite E.
    now apply falsy_omitted.
Qed.

Lemma C3_witness :
  In (value_bullet "maxLength" (VInt 5))
     (obj_bullets [("required", VBool false); ("maxLength", VInt 5)] []).
Proof.
  apply (C3_truthy_attribute_bullet
           [("required", VBool false); ("maxLength", VInt 5)] []
           "maxLength" (VInt 5)).
  - simpl. auto.
  - discriminate.
  - reflexivity.
  - discriminate.
  - reflexivity.
Defined.

(** C3 as stated fails: attributes set to false, to 0 and to the empty
    string get no bullet. *)
Lemma C3_counterexample :
  obj_attributes_to_markdown
    (Some [("required", VBool false); ("maxLength", VInt 0);
           ("title", VStr "")]) []
  = "*No description.*<br>"
  /\ ~ In (value_bullet "required" (VBool false))
          (obj_bullets [("required", VBool false); ("maxLength", VInt 0);
                        ("title", VStr "")] [])
  /\ Py.contains (value_bullet "required" (VBool false))
       (obj_attributes_to_markdown
          (Some [("required", VBool false); ("maxLength", VInt 0);
                 ("title", VStr "")]) []) = false
  /\ Py.contains (value_bullet "maxLength" (VInt 0))
       (obj_attributes_to_markdown
          (Some [("required", VBool false); ("maxLength", VInt 0);
                 ("title", VStr "")]) []) = false
  /\ Py.contains (value_bullet "title" (VStr ""))
       (obj_attributes_to_markdown
          (Some [("required", VBool false); ("maxLength", VInt 0);
                 ("title", VStr "")]) []) = false.
Proof.
  split; [reflexivity|]. split; [intros H; exact H|].
  repeat split; vm_compute; reflexivity.
Qed.

(** C6: for every field, whichever of [fields], [items], [keys] and
    [values] it has, [field_to_markdown] returns the parent row joined
    with the block of [fields], then of [items], of [keys] and of
    [values]; row by row this is the parent row followed by the rows of
    the subtrees in that order.  The function is total. *)
Theorem C6_children_in_fixed_order :
  forall (name : string) (field : Field) (level : nat),
    field_to_markdown name field level
    = Py.join Py.nl
        ([field_row name field level]
           ++ fields_block (field_fields field) (S level)
           ++ child_block "items" (field_items field) (S level)
           ++ child_block "keys" (field_keys field) (S level)
           ++ child_block "values" (field_values field) (S level))%list
    /\ field_to_markdown name field level
       = Py.join Py.nl
           (field_row name field level
              :: map node_row
                   (fields_nodes (field_fields field) (S level)
                      ++ child_nodes "items" (field_items field) (S level)
                      ++ child_nodes "keys" (field_keys field) (S level)
                      ++ child_nodes "values" (field_values field) (S level)))
    /\ (forall base type items values,
          field_to_markdown name
            (mkField base type [] (Some items) None (Some values)) level
          = field_row name
              (mkField base type [] (Some items) None (Some values)) level
            ++ Py.nl ++ field_to_markdown "items" items (S level)
            ++ Py.nl ++ field_to_markdown "values" values (S level)).
Proof.
  intros name field level. split; [|split].
  - rewrite field_to_markdown_eq. unfold fields_block, child_block.
    destruct (field_fields field); reflexivity.
  - rewrite field_to_markdown_rows, field_nodes_eq. reflexivity.
  - intros base type items values. rewrite field_to_markdown_eq. reflexivity.
Qed.

(** C7: an object on which no description was set is rendered with
    "*No description.*", as is a model without description; an object
    whose description is "a\nb" is rendered with "*a<br>b*"; in every
    description each newline becomes "<br>", the text between newlines
    is kept, and no newline is left. *)
Theorem C7_description_fallback_and_breaks :
  description_to_markdown None = "No description."
  /\ description_to_markdown (Some ("a" ++ Py.nl ++ "b")) = "a<br>b"
  /\ (forall a b,
        description_to_markdown (Some (a ++ Py.nl ++ b))
        = Py.replace Py.newline "<br>" a ++ "<br>"
            ++ Py.replace Py.newline "<br>" b)
  /\ (forall s, Py.count Py.nl s = 0 -> Py.replace Py.newline "<br>" s = s)
  /\ (forall description,
        Py.one_line (description_to_markdown description) = true)
  /\ (forall o excluded,
        get "description" o = None ->
        obj_attributes_to_markdown (Some o) excluded
        = "*No description.*" ++ "<br>"
            ++ Py.join "<br>" (obj_bullets o excluded))
  /\ (forall o excluded,
        get "description" o = Some (VStr ("a" ++ Py.nl ++ "b")) ->
        mem "description" excluded = false ->
        obj_attributes_to_markdown (Some o) excluded
        = "*a<br>b*" ++ "<br>" ++ Py.join "<br>" (obj_bullets o excluded))
  /\ (forall name fields,
        exists rest,
          model_to_markdown name (mkModel None fields)
          = "### " ++ name ++ Py.nl ++ "*No description.*" ++ Py.nl ++ rest).
Proof.
  split; [reflexivity|]. split; [reflexivity|].
  split; [|split; [|split; [|split; [|split]]]].
  - intros a b. unfold description_to_markdown.
    destruct (String.eqb_spec (a ++ Py.nl ++ b) "") as [E|_].
    + apply sapp_eq_nil in E. destruct E as [_ E]. discriminate E.
    + rewrite replace_app. reflexivity.
  - intros s. apply replace_id.
  - apply description_to_markdown_one_line.
  - intros o excluded H. rewrite obj_attributes_to_markdown_eq.
    unfold obj_description. now rewrite (get_model_dump_none _ _ _ H).
  - intros o excluded H He. rewrite obj_attributes_to_markdown_eq.
    unfold obj_description. now rewrite (get_model_dump _ _ _ He), H.
  - intros name fields. unfold model_to_markdown.
    cbn [model_description model_fields app Py.join].
    eexists. rewrite !sapp_assoc. reflexivity.
Qed.

Lemma C7_witness :
  obj_attributes_to_markdown (Some [("required", VBool true)]) []
  = "*No description.*" ++ "<br>"
      ++ Py.join "<br>" (obj_bullets [("required", VBool true)] [])
  /\ obj_attributes_to_markdown
       (Some [("description", VStr ("a" ++ Py.nl ++ "b"))]) []
     = "*a<br>b*" ++ "<br>"
         ++ Py.join "<br>"
              (obj_bullets [("description", VStr ("a" ++ Py.nl ++ "b"))] []).
Proof.
  split.
  - apply C7_description_fallback_and_breaks. reflexivity.
  - apply C7_description_fallback_and_breaks; reflexivity.
Defined.

(** C8: an attribute set to the boolean true is rendered as the bullet
    with only the backtick-quoted name; an attribute set to false leaves
    the output as it is without the attribute; and every bullet of the
    output belongs to an attribute that was set, to a truthy value. *)
Theorem C8_flag_bullet :
  forall (excluded : list string) (attr : string),
    attr <> "description" -> mem attr excluded = false ->
    (forall o,
       In (attr, VBool true) o ->
       exists before after,
         obj_attributes_to_markdown (Some o) excluded
         = "*" ++ description_to_markdown (obj_description o excluded)
               ++ "*<br>"
               ++ Py.join "<br>" (before ++ [flag_bullet attr] ++ after)%list)
    /\ (forall o1 o2,
          obj_attributes_to_markdown
            (Some (o1 ++ (attr, VBool false) :: o2)%list) excluded
          = obj_attributes_to_markdown (Some (o1 ++ o2)%list) excluded)
    /\ (forall o b,
          In b (obj_bullets o excluded) ->
          exists a v,
            In (a, v) o /\ truthy v = true
            /\ b = attribute_to_markdown a v).
Proof.
  intros excluded attr Hd He. split; [|split].
  - intros o Hin.
    destruct (truthy_rendered o excluded attr (VBool true) Hin Hd He eq_refl)
      as [before [after E]].
    exists before, after.
    rewrite obj_attributes_to_markdown_eq, E, attribute_flag. reflexivity.
  - intros o1 o2. now apply falsy_omitted.
  - intros o b Hb.
    destruct (bullets_from_set o excluded b Hb)
      as [a [v [Hin [Ht [_ [_ Eb]]]]]].
    exists a, v. auto.
Qed.

Lemma C8_witness :
  obj_attributes_to_markdown
    (Some ([("unique", VBool true)] ++ ("required", VBool false) :: [])%list)
    ["type"]
  = obj_attributes_to_markdown (Some ([("unique", VBool true)] ++ [])%list)
      ["type"].
Proof.
  apply (C8_flag_bullet ["type"] "required"); [discriminate | reflexivity].
Defined.

(** C9: the rows follow the mappings.  The rows of servers and of
    definitions are the rows of the entries in mapping order under the
    two header rows; the models are rendered in mapping order; the rows
    of a mapping of fields are the rows of its nodes, and the nodes at the
    level of the mapping are its entries in mapping order, each followed
    by its subtree, whose [fields] are listed in the same way one level
    deeper. *)
Theorem C9_mapping_order :
  (forall entry rest,
     servers_to_markdown (Some (entry :: rest))
     = Py.join Py.nl
         ("| Name | Type | Attributes |"
            :: "| ---- | ---- | ---------- |"
            :: map server_row (entry :: rest)))
  /\ (forall entry rest,
        definitions_to_markdown (Some (entry :: rest))
        = Py.join Py.nl
            ("| Name | Type | Domain | Attributes |"
               :: "| ---- | ---- | ------ | ---------- |"
               :: map definition_row (entry :: rest)))
  /\ (forall models,
        models_to_markdown models
        = Py.join Py.nl
            (map (fun nm => model_to_markdown (fst nm) (snd nm)) models))
  /\ (forall fields level,
        fields_to_markdown fields level
        = Py.join Py.nl (map node_row (fields_nodes fields level))
        /\ filter (fun x => Nat.eqb (node_level x) level)
                  (fields_nodes fields level)
           = map (fun nf => (fst nf, snd nf, level)) fields)
  /\ (forall name field level,
        field_nodes name field level
        = ((name, field, level)
             :: fields_nodes (field_fields field) (S level)
             ++ child_nodes "items" (field_items field) (S level)
             ++ child_nodes "keys" (field_keys field) (S level)
             ++ child_nodes "values" (field_values field) (S level))%list).
Proof.
  split; [reflexivity|]. split; [reflexivity|]. split; [reflexivity|].
  split.
  - intros fields level.
    split; [apply fields_to_markdown_rows | apply filter_fields_top].
  - apply field_nodes_eq.
Qed.

(** C10: for every object that is not None the output begins with "*",
    the description with its fallback, "*" and "<br>", and so is not
    empty, also when no bullet follows; the Attributes cell of a server
    row, a definition row and a field row is such an output. *)
Theorem C10_attributes_never_empty :
  forall (o : BaseModel) (excluded : list string),
    (exists rest,
       obj_attributes_to_markdown (Some o) excluded
       = "*" ++ description_to_markdown (obj_description o excluded)
             ++ "*<br>" ++ rest)
    /\ description_to_markdown (obj_description o excluded) <> ""
    /\ obj_attributes_to_markdown (Some o) excluded <> ""
    /\ Py.startswith "*" (obj_attributes_to_markdown (Some o) excluded) = true
    /\ (obj_bullets o excluded = [] ->
        obj_attributes_to_markdown (Some o) excluded
        = "*" ++ description_to_markdown (obj_description o excluded)
              ++ "*<br>")
    /\ (forall name type,
          server_row (name, mkServer o type)
          = "| " ++ name ++ " | " ++ or_empty type ++ " | "
                 ++ obj_attributes_to_markdown (Some o) ["type"] ++ " |")
    /\ (forall name type domain,
          definition_row (name, mkDefinition o type domain)
          = "| " ++ name ++ " | " ++ or_empty type ++ " | "
                 ++ or_empty domain ++ " | "
                 ++ obj_attributes_to_markdown (Some o)
                      ["name"; "type"; "domain"] ++ " |")
    /\ (forall name type fields items keys values level,
          field_row name (mkField o type fields items keys values) level
          = "| " ++ column_name name level ++ " | " ++ str_opt type ++ " | "
                 ++ obj_attributes_to_markdown (Some o) field_excluded
                 ++ " |").
Proof.
  intros o excluded.
  split; [eexists; apply obj_attributes_to_markdown_eq|].
  split; [apply description_to_markdown_not_nil|].
  split; [rewrite obj_attributes_to_markdown_eq; discriminate|].
  split; [reflexivity|].
  split.
  - intros E. rewrite obj_attributes_to_markdown_eq, E. cbn [Py.join].
    now rewrite sapp_nil_r.
  - repeat split.
Qed.

Lemma C10_witness :
  obj_attributes_to_markdown (Some [("required", VBool false)]) []
  = "*" ++ description_to_markdown
             (obj_description [("required", VBool false)] [])
        ++ "*<br>".
Proof.
  apply (C10_attributes_never_empty [("required", VBool false)] []).
  reflexivity.
Defined.

(** ** Further properties of the converter *)

Section MoreStrings.

Lemma sapp_eq_self (a b : string) : a ++ b = a -> b = "".
Proof.
  induction a as [|c a IH]; simpl; [auto|].
  intros H. injection H as H. auto.
Qed.

Lemma sapp_inv_head (a b c : string) : a ++ b = a ++ c -> b = c.
Proof.
  induction a as [|x a IH]; simpl; [auto|].
  intros H. injection H as H. auto.
Qed.

Lemma replace_one_line_id (new s : string) :
  Py.one_line s = true -> Py.replace Py.newline new s = s.
Proof.
  induction s as [|c s IH]; simpl; [reflexivity|].
  destruct (Ascii.eqb c Py.newline); simpl; [discriminate|].
  intros H. now rewrite IH.
Qed.

Lemma one_line_join (sep : string) (l : list string) :
  Py.one_line sep = true ->
  Forall (fun s => Py.one_line s = true) l ->
  Py.one_line (Py.join sep l) = true.
Proof.
  intros Hsep. induction 1 as [|x l Hx Hl IH]; [reflexivity|].
  destruct l as [|y l]; [exact Hx|].
  rewrite join_cons by discriminate.
  now rewrite !one_line_app, Hx, Hsep, IH.
Qed.

Lemma one_line_join_false (sep b : string) (l : list string) :
  In b l -> Py.one_line b = false -> Py.one_line (Py.join sep l) = false.
Proof.
  intros Hin Hb. induction l as [|x l IH]; [contradiction|].
  destruct l as [|y l].
  - destruct Hin as [->|[]]. exact Hb.
  - rewrite join_cons by discriminate. rewrite !one_line_app.
    destruct Hin as [->|Hin].
    + now rewrite Hb.
    + rewrite (IH Hin). now rewrite !andb_false_r.
Qed.

Lemma lines_join_one_line (l : list string) :
  l <> [] -> Forall (fun s => Py.one_line s = true) l ->
  Py.lines (Py.join Py.nl l) = l.
Proof.
  intros Hl H. rewrite lines_join by assumption.
  clear Hl. induction H as [|x l Hx _ IH]; [reflexivity|].
  cbn [map concat]. now rewrite IH, (lines_one_line x Hx).
Qed.

Lemma one_line_tabs (level : nat) : Py.one_line (tabs level) = true.
Proof.
  induction level as [|level IH]; [reflexivity|].
  change (tabs (S level)) with ("&numsp;" ++ tabs level).
  now rewrite one_line_app, IH.
Qed.

Lemma one_line_column_name (name : string) (level : nat) :
  Py.one_line (column_name name level) = Py.one_line name.
Proof.
  unfold column_name. rewrite !one_line_app, one_line_tabs.
  unfold arrow. destruct (Nat.ltb 0 level); reflexivity.
Qed.

End MoreStrings.

Section MoreFields.

(** X1: a field tree is rendered as the single row of the field exactly
    when the field is a leaf. *)
Theorem X1_leaf_single_row :
  forall (name : string) (field : Field) (level : nat),
    (is_leaf field = true ->
     field_to_markdown name field level = field_row name field level)
    /\ (field_to_markdown name field level = field_row name field level ->
        is_leaf field = true).
Proof.
  intros name field level. rewrite field_to_markdown_eq.
  destruct field as [b t fs it ks vs]. unfold is_leaf.
  cbn [field_fields field_items field_keys field_values].
  split.
  - destruct fs, it, ks, vs; intros H; try discriminate H. reflexivity.
  - destruct fs, it, ks, vs; intros H; try reflexivity; exfalso;
      cbn [app] in H; rewrite join_cons in H by discriminate;
      apply sapp_eq_self in H; discriminate H.
Qed.

Lemma X1_witness :
  field_to_markdown "id" string_field 2 = field_row "id" string_field 2.
Proof.
  apply (X1_leaf_single_row "id" string_field 2). reflexivity.
Defined.

(** X2: when no row of a field tree holds a newline, the lines of the
    rendered tree are the rows of its nodes, one line per node. *)
Theorem X2_one_line_per_node :
  forall (name : string) (field : Field) (level : nat),
    Forall (fun x => Py.one_line (node_row x) = true)
           (field_nodes name field level) ->
    Py.lines (field_to_markdown name field level)
    = map node_row (field_nodes name field level)
    /\ length (Py.lines (field_to_markdown name field level))
       = length (field_nodes name field level).
Proof.
  intros name field level H.
  assert (E : Py.lines (field_to_markdown name field level)
              = map node_row (field_nodes name field level)).
  { rewrite field_to_markdown_rows. apply lines_join_one_line.
    - apply field_nodes_not_nil.
    - apply Forall_forall. intros r Hr. apply in_map_iff in Hr.
      destruct Hr as [x [<- Hx]]. rewrite Forall_forall in H. now apply H. }
  split; [exact E|]. now rewrite E, length_map.
Qed.

Lemma X2_witness :
  length (Py.lines (field_to_markdown "items" array_field 0)) = 2.
Proof.
  rewrite (proj2 (X2_one_line_per_node "items" array_field 0
                    ltac:(repeat constructor))).
  reflexivity.
Defined.

(** X3: in the rows of a field tree the field itself comes first and
    every other node is strictly deeper, so that its row starts with an
    indentation marker. *)
Theorem X3_descendants_deeper :
  forall (name : string) (field : Field) (level : nat),
  exists rest,
    field_nodes name field level = (name, field, level) :: rest
    /\ Forall (fun x => level < node_level x
                        /\ Py.startswith "| &numsp;" (node_row x) = true)
              rest.
Proof.
  intros name field level. rewrite field_nodes_eq. eexists. split;
    [reflexivity|].
  assert (deep : forall l,
             Forall (fun x : node => S level <= node_level x) l ->
             Forall (fun x => level < node_level x
                              /\ Py.startswith "| &numsp;" (node_row x) = true)
                    l).
  { intros l. apply Forall_impl. intros [[n f] d] Hd. cbn in Hd.
    split; [cbn; lia|]. destruct d as [|d]; [lia|]. reflexivity. }
  apply deep. repeat (apply Forall_app; split).
  - unfold fields_nodes. apply Forall_flat_map, Forall_forall.
    intros nf _. apply levels_ge.
  - destruct (field_items field); [apply levels_ge | constructor].
  - destruct (field_keys field); [apply levels_ge | constructor].
  - destruct (field_values field); [apply levels_ge | constructor].
Qed.

(** X4: rendering a field [k] levels deeper lists the same fields in
    the same order, each [k] levels deeper. *)
Theorem X4_levels_shift :
  forall (field : Field) (name : string) (k level : nat),
    field_nodes name field (k + level)
    = map (deepen k) (field_nodes name field level).
Proof.
  induction field as [b t fs it ks vs Hfs Hit Hks Hvs] using Field_tree_ind.
  intros name k level. rewrite !field_nodes_eq.
  cbn [field_fields field_items field_keys field_values map].
  f_equal. rewrite !map_app, <- !Nat.add_succ_r.
  f_equal; [|f_equal; [|f_equal]].
  - unfold fields_nodes. rewrite !flat_map_concat_map, concat_map, map_map.
    f_equal. apply map_ext_in. intros nf Hin.
    rewrite Forall_forall in Hfs. now apply Hfs.
  - destruct it; [apply Hit | reflexivity].
  - destruct ks; [apply Hks | reflexivity].
  - destruct vs; [apply Hvs | reflexivity].
Qed.

End MoreFields.

Section MoreAttributes.

Lemma one_line_attribute (kv : string * value) :
  clean_attribute kv = true ->
  Py.one_line (attribute_to_markdown (fst kv) (snd kv)) = true.
Proof.
  unfold clean_attribute, attribute_to_markdown. intros H.
  apply andb_true_iff in H. destruct H as [Hn Hv].
  destruct (is_True (snd kv)); rewrite !one_line_app, Hn, ?Hv; reflexivity.
Qed.

Lemma one_line_bullets (o : BaseModel) (excluded : list string) :
  Forall (fun kv => String.eqb (fst kv) "description" || clean_attribute kv
                    = true) o ->
  Forall (fun s => Py.one_line s = true) (obj_bullets o excluded).
Proof.
  intros H. apply Forall_forall. intros b Hb.
  unfold obj_bullets, attributes, remove, model_dump in Hb.
  apply in_map_iff in Hb. destruct Hb as [kv [<- Hkv]].
  apply filter_In in Hkv. destruct Hkv as [Hkv _].
  apply filter_In in Hkv. destruct Hkv as [Hkv Hd].
  apply filter_In in Hkv. destruct Hkv as [Hkv _].
  rewrite Forall_forall in H. apply one_line_attribute.
  specialize (H kv Hkv). apply negb_true_iff in Hd.
  now rewrite Hd in H.
Qed.

(** X5: when, the description apart, no attribute name and no attribute
    value's string form holds a newline, the output of
    [obj_attributes_to_markdown] is a single line, whatever the
    description holds; and so is the row of a field whose name and type
    hold no newline either. *)
Theorem X5_cell_single_line :
  forall (o : BaseModel) (excluded : list string),
    Forall (fun kv => String.eqb (fst kv) "description" || clean_attribute kv
                      = true) o ->
    Py.one_line (obj_attributes_to_markdown (Some o) excluded) = true
    /\ (forall name type fields items keys values level,
          Py.one_line name = true -> Py.one_line (str_opt type) = true ->
          Py.one_line
            (field_row name (mkField o type fields items keys values) level)
          = true).
Proof.
  intros o excluded H.
  assert (cell : forall ex,
             Py.one_line (obj_attributes_to_markdown (Some o) ex) = true).
  { intros ex. rewrite obj_attributes_to_markdown_eq, !one_line_app.
    rewrite description_to_markdown_one_line.
    rewrite (one_line_join "<br>" _ eq_refl (one_line_bullets o ex H)).
    reflexivity. }
  split; [apply cell|].
  intros name type fields items keys values level Hn Ht.
  unfold field_row. cbn [field_base field_type].
  rewrite !one_line_app, one_line_column_name, Hn, Ht, cell. reflexivity.
Qed.

Lemma X5_witness :
  Py.one_line
    (obj_attributes_to_markdown
       (Some [("description", VStr ("a" ++ Py.nl ++ "b"));
              ("required", VBool true); ("maxLength", VInt 12)]) [])
  = true.
Proof.
  apply (X5_cell_single_line
           [("description", VStr ("a" ++ Py.nl ++ "b"));
            ("required", VBool true); ("maxLength", VInt 12)] []).
  repeat (apply Forall_cons; [reflexivity|]). apply Forall_nil.
Defined.

(** X6: only the description has its newlines replaced: a rendered
    attribute whose value's string form holds a newline leaves the
    newline in the output, which then is more than one line. *)
Theorem X6_value_newline_kept :
  forall (o : BaseModel) (excluded : list string) (attr : string) (v : value),
    In (attr, v) o -> attr <> "description" -> mem attr excluded = false ->
    truthy v = true -> v <> VBool true ->
    Py.one_line (str v) = false ->
    Py.one_line (obj_attributes_to_markdown (Some o) excluded) = false.
Proof.
  intros o excluded attr v Hin Hd He Ht Hv Hs.
  rewrite obj_attributes_to_markdown_eq, !one_line_app.
  destruct (truthy_rendered o excluded attr v Hin Hd He Ht)
    as [before [after E]].
  rewrite (one_line_join_false "<br>" (attribute_to_markdown attr v)).
  - now rewrite !andb_false_r.
  - rewrite E. apply in_or_app. right. now left.
  - rewrite (attribute_value attr v Hv). unfold value_bullet.
    rewrite !one_line_app, Hs. now rewrite !andb_false_r.
Qed.

Lemma X6_witness :
  Py.one_line
    (obj_attributes_to_markdown
       (Some [("pattern", VStr ("x" ++ Py.nl ++ "y"))]) [])
  = false.
Proof.
  apply (X6_value_newline_kept
           [("pattern", VStr ("x" ++ Py.nl ++ "y"))] []
           "pattern" (VStr ("x" ++ Py.nl ++ "y"))).
  - simpl. auto.
  - discriminate.
  - reflexivity.
  - reflexivity.
  - discriminate.
  - reflexivity.
Defined.

(** X7: an attribute named in [excluded_fields] has no effect on the
    output, whatever its value: neither a bullet nor, for "description",
    a description. *)
Theorem X7_excluded_ignored :
  forall (o1 o2 : BaseModel) (excluded : list string)
         (attr : string) (v : value),
    mem attr excluded = true ->
    obj_attributes_to_markdown (Some (o1 ++ (attr, v) :: o2)%list) excluded
    = obj_attributes_to_markdown (Some (o1 ++ o2)%list) excluded.
Proof.
  intros o1 o2 excluded attr v He.
  rewrite !obj_attributes_to_markdown_eq.
  unfold obj_bullets, obj_description, model_dump.
  rewrite !filter_app. cbn [filter fst]. rewrite He. reflexivity.
Qed.

Lemma X7_witness :
  obj_attributes_to_markdown
    (Some ([("required", VBool true)] ++ ("type", VStr "string") :: [])%list)
    field_excluded
  = obj_attributes_to_markdown
      (Some ([("required", VBool true)] ++ [])%list) field_excluded.
Proof.
  apply (X7_excluded_ignored [("required", VBool true)] [] field_excluded
           "type" (VStr "string")).
  reflexivity.
Defined.

(** X8: the description is never listed as a bullet: the bullets of an
    object do not depend on whether, or to what, its description is
    set. *)
Theorem X8_description_no_bullet :
  forall (o1 o2 : BaseModel) (excluded : list string) (v : value),
    obj_bullets (o1 ++ ("description", v) :: o2)%list excluded
    = obj_bullets (o1 ++ o2)%list excluded.
Proof.
  intros o1 o2 excluded v. unfold obj_bullets, remove, model_dump.
  rewrite !filter_app. cbn [filter fst].
  destruct (negb (mem "description" excluded)); [|reflexivity].
  rewrite ?filter_app. cbn [filter fst String.eqb]. reflexivity.
Qed.

(** X9: [description_to_markdown] takes the fallback for the empty
    string as for None, and applying it to its own result changes
    nothing. *)
Theorem X9_description_idempotent :
  description_to_markdown (Some "") = description_to_markdown None
  /\ forall description,
       description_to_markdown (Some (description_to_markdown description))
       = description_to_markdown description.
Proof.
  split; [reflexivity|]. intros description.
  pose proof (description_to_markdown_not_nil description) as Hn.
  pose proof (description_to_markdown_one_line description) as Hl.
  set (r := description_to_markdown description) in *.
  unfold description_to_markdown at 1.
  destruct (String.eqb_spec r ""); [contradiction|].
  now apply replace_one_line_id.
Qed.

(** X10: [obj_attributes_to_markdown] returns the empty string for None
    and for nothing else. *)
Theorem X10_empty_only_for_none :
  forall (obj : option BaseModel) (excluded : list string),
    (obj = None -> obj_attributes_to_markdown obj excluded = "")
    /\ (obj_attributes_to_markdown obj excluded = "" -> obj = None).
Proof.
  intros obj excluded. split.
  - intros ->. reflexivity.
  - destruct obj as [o|]; [|reflexivity].
    rewrite obj_attributes_to_markdown_eq. discriminate.
Qed.

Lemma X10_witness : obj_attributes_to_markdown None ["type"] = "".
Proof.
  apply (X10_empty_only_for_none None ["type"]). reflexivity.
Defined.

(** X11: the bullets keep the order of the attributes: the bullets of
    two runs of attributes are the bullets of the first followed by
    those of the second, and there is at most one bullet per set
    attribute. *)
Theorem X11_bullets_in_attribute_order :
  forall (o1 o2 : BaseModel) (excluded : list string),
    obj_bullets (o1 ++ o2)%list excluded
    = (obj_bullets o1 excluded ++ obj_bullets o2 excluded)%list
    /\ length (obj_bullets o1 excluded) <= length o1.
Proof.
  intros o1 o2 excluded. unfold obj_bullets, attributes, remove, model_dump.
  split.
  - now rewrite !filter_app, map_app.
  - rewrite length_map.
    eapply Nat.le_trans; [apply filter_length_le|].
    eapply Nat.le_trans; [apply filter_length_le|].
    apply filter_length_le.
Qed.

End MoreAttributes.

Section MoreSections.

Lemma one_line_cell (o : BaseModel) (excluded : list string) :
  clean_object o = true ->
  Py.one_line (obj_attributes_to_markdown (Some o) excluded) = true.
Proof.
  intros H. unfold clean_object in H. rewrite forallb_forall in H.
  rewrite obj_attributes_to_markdown_eq, !one_line_app.
  rewrite description_to_markdown_one_line.
  rewrite (one_line_join "<br>" (obj_bullets o excluded) eq_refl).
  - reflexivity.
  - apply one_line_bullets, Forall_forall. exact H.
Qed.

Lemma extend_part_eq (result : list string) (heading : string)
  (part : option BaseModel) :
  extend_part result heading part
  = (result ++ part_section (heading, part))%list.
Proof.
  unfold extend_part, part_section. cbn [fst snd].
  destruct part; [reflexivity | now rewrite app_nil_r].
Qed.

Lemma sections_end_blank (parts : list (string * option BaseModel)) :
  flat_map part_section parts = []
  \/ exists l, flat_map part_section parts = (l ++ [""])%list.
Proof.
  induction parts as [|[h p] parts IH]; [now left|].
  cbn [flat_map]. destruct IH as [E|[l E]]; rewrite E.
  - rewrite app_nil_r. unfold part_section. cbn [fst snd].
    destruct p; [right | now left].
    exists [h; obj_attributes_to_markdown (Some b) []]. reflexivity.
  - right. exists (part_section (h, p) ++ l)%list. now rewrite app_assoc.
Qed.

Lemma service_level_to_markdown_eq (sl : ServiceLevel) :
  service_level_to_markdown (Some sl)
  = Py.join Py.nl ("" :: flat_map part_section (service_level_parts sl)).
Proof.
  unfold service_level_to_markdown.
  rewrite !extend_part_eq, <- !app_assoc.
  unfold service_level_parts. cbn [flat_map app].
  now rewrite app_nil_r.
Qed.


(** X13: a service levels object without any part is rendered as the
    empty string, as None is; when a part is present the output starts
    with a newline and ends with a newline. *)
Theorem X13_service_level_edges :
  service_level_to_markdown None = ""
  /\ service_level_to_markdown (Some no_service_levels) = ""
  /\ forall sl : ServiceLevel,
       sl <> no_service_levels ->
       Py.startswith Py.nl (service_level_to_markdown (Some sl)) = true
       /\ exists body,
            service_level_to_markdown (Some sl) = body ++ Py.nl.
Proof.
  split; [reflexivity|]. split; [reflexivity|].
  intros sl Hsl. rewrite service_level_to_markdown_eq.
  destruct (sections_end_blank (service_level_parts sl)) as [E|[l E]].
  - exfalso. apply Hsl. destruct sl as [a b c d e f g].
    unfold service_level_parts, part_section in E. cbn [flat_map fst snd] in E.
    cbn [availability retention latency freshness frequency support backup]
      in E.
    destruct a; [discriminate E|]. destruct b; [discriminate E|].
    destruct c; [discriminate E|]. destruct d; [discriminate E|].
    destruct e; [discriminate E|]. destruct f; [discriminate E|].
    destruct g; [discriminate E|]. reflexivity.
  - rewrite E. split.
    + destruct l; reflexivity.
    + exists (Py.join Py.nl ("" :: l)).
      change ("" :: l ++ [""])%list with (("" :: l) ++ [""])%list.
      rewrite join_app by discriminate. cbn [Py.join].
      now rewrite sapp_nil_r.
Qed.

Lemma X13_witness :
  Py.startswith Py.nl
    (service_level_to_markdown
       (Some (mkServiceLevel None (Some []) None None None None None)))
  = true.
Proof.
  apply (X13_service_level_edges).
  discriminate.
Defined.

(** X14: for a non-empty mapping of servers whose names, types and
    attributes hold no newline, the lines of [servers_to_markdown] are
    the two header rows followed by one row per server. *)
Theorem X14_server_lines :
  forall (entry : string * Server) (rest : list (string * Server)),
    Forall (fun e => clean_server e = true) (entry :: rest) ->
    Py.lines (servers_to_markdown (Some (entry :: rest)))
    = "| Name | Type | Attributes |"
        :: "| ---- | ---- | ---------- |"
        :: map server_row (entry :: rest)
    /\ length (Py.lines (servers_to_markdown (Some (entry :: rest))))
       = 2 + length (entry :: rest).
Proof.
  intros entry rest H.
  assert (E : Py.lines (servers_to_markdown (Some (entry :: rest)))
              = "| Name | Type | Attributes |"
                  :: "| ---- | ---- | ---------- |"
                  :: map server_row (entry :: rest)).
  { unfold servers_to_markdown. apply lines_join_one_line; [discriminate|].
    cbn [app]. constructor; [reflexivity|]. constructor; [reflexivity|].
    apply Forall_forall. intros r Hr. apply in_map_iff in Hr.
    destruct Hr as [[name server] [<- He]].
    rewrite Forall_forall in H. specialize (H _ He).
    unfold clean_server in H. cbn [fst snd] in H.
    apply andb_true_iff in H. destruct H as [H Ho].
    apply andb_true_iff in H. destruct H as [Hn Ht].
    unfold server_row.
    now rewrite !one_line_app, Hn, Ht, (one_line_cell _ _ Ho). }
  split; [exact E|]. rewrite E. cbn [length]. now rewrite length_map.
Qed.

Lemma X14_witness :
  length
    (Py.lines
       (servers_to_markdown
          (Some [("production",
                  mkServer [("type", VStr "s3"); ("location", VStr "s3://x")]
                           (Some "s3"))])))
  = 3.
Proof.
  apply (X14_server_lines
           ("production",
            mkServer [("type", VStr "s3"); ("location", VStr "s3://x")]
                     (Some "s3")) []).
  repeat (apply Forall_cons; [reflexivity|]). apply Forall_nil.
Defined.

(** X15: for a non-empty mapping of definitions whose names, types,
    domains and attributes hold no newline, the lines of
    [definitions_to_markdown] are the two header rows followed by one row
    per definition. *)
Theorem X15_definition_lines :
  forall (entry : string * Definition_) (rest : list (string * Definition_)),
    Forall (fun e => clean_definition e = true) (entry :: rest) ->
    Py.lines (definitions_to_markdown (Some (entry :: rest)))
    = "| Name | Type | Domain | Attributes |"
        :: "| ---- | ---- | ------ | ---------- |"
        :: map definition_row (entry :: rest).
Proof.
  intros entry rest H.
  unfold definitions_to_markdown. apply lines_join_one_line; [discriminate|].
  cbn [app]. constructor; [reflexivity|]. constructor; [reflexivity|].
  apply Forall_forall. intros r Hr. apply in_map_iff in Hr.
  destruct Hr as [[name definition] [<- He]].
  rewrite Forall_forall in H. specialize (H _ He).
  unfold clean_definition in H. cbn [fst snd] in H.
  apply andb_true_iff in H. destruct H as [H Ho].
  apply andb_true_iff in H. destruct H as [H Hd].
  apply andb_true_iff in H. destruct H as [Hn Ht].
  unfold definition_row.
  now rewrite !one_line_app, Hn, Ht, Hd, (one_line_cell _ _ Ho).
Qed.

Lemma X15_witness :
  Py.lines
    (definitions_to_markdown
       (Some [("order_id",
               mkDefinition [("name", VStr "order_id"); ("type", VStr "text");
                             ("pii", VBool true)]
                            (Some "text") None)]))
  = "| Name | Type | Domain | Attributes |"
      :: "| ---- | ---- | ------ | ---------- |"
      :: map definition_row
           [("order_id",
             mkDefinition [("name", VStr "order_id"); ("type", VStr "text");
                           ("pii", VBool true)]
                          (Some "text") None)].
Proof.
  apply (X15_definition_lines
           ("order_id",
            mkDefinition [("name", VStr "order_id"); ("type", VStr "text");
                          ("pii", VBool true)]
                         (Some "text") None) []).
  repeat (apply Forall_cons; [reflexivity|]). apply Forall_nil.
Defined.

(** X16: when the model name and the rows of the fields hold no
    newline, the lines of a model are its five head lines followed by one
    line per node of its fields; a model without fields ends with an
    empty line instead. *)
Theorem X16_model_lines :
  forall (name : string) (model : Model),
    Py.one_line name = true ->
    Forall (fun x => Py.one_line (node_row x) = true)
           (fields_nodes (model_fields model) 0) ->
    Py.lines (model_to_markdown name model)
    = (model_head name model
       ++ match model_fields model with
          | [] => [""]
          | _ :: _ => map node_row (fields_nodes (model_fields model) 0)
          end)%list.
Proof.
  intros name model Hn H. unfold model_to_markdown.
  fold (model_head name model).
  rewrite lines_join by (unfold model_head; discriminate).
  rewrite map_app, concat_app. f_equal.
  - unfold model_head. cbn [map concat].
    rewrite (lines_one_line ("### " ++ name)) by exact Hn.
    rewrite (lines_one_line
               ("*" ++ description_to_markdown (model_description model)
                    ++ "*")).
    + reflexivity.
    + now rewrite !one_line_app, description_to_markdown_one_line.
  - cbn [map concat]. rewrite app_nil_r.
    destruct (model_fields model) as [|nf fs] eqn:E; [reflexivity|].
    rewrite fields_to_markdown_rows. apply lines_join_one_line.
    + unfold fields_nodes. cbn [flat_map]. rewrite map_app. intros H0.
      apply app_eq_nil in H0. destruct H0 as [H0 _].
      now apply field_nodes_not_nil in H0.
    + apply Forall_forall. intros r Hr. apply in_map_iff in Hr.
      destruct Hr as [x [<- Hx]]. rewrite Forall_forall in H. now apply H.
Qed.

Lemma X16_witness :
  Py.lines (model_to_markdown "Order" (order_model None))
  = (model_head "Order" (order_model None)
     ++ map node_row (fields_nodes [("items", array_field)] 0))%list.
Proof.
  apply (X16_model_lines "Order" (order_model None)).
  - reflexivity.
  - repeat (apply Forall_cons; [reflexivity|]). apply Forall_nil.
Defined.

(** X17: a server, and a definition, without type is rendered like one
    whose type is the empty string, but a field without type is rendered
    with the text "None" in the Type column, which differs from the row
    of a field whose type is the empty string. *)
Theorem X17_missing_type :
  (forall name o,
     server_row (name, mkServer o None)
     = server_row (name, mkServer o (Some "")))
  /\ (forall name o domain,
        definition_row (name, mkDefinition o None domain)
        = definition_row (name, mkDefinition o (Some "") domain))
  /\ (forall name o fields items keys values level,
        field_row name (mkField o None fields items keys values) level
        = "| " ++ column_name name level ++ " | None | "
               ++ obj_attributes_to_markdown (Some o) field_excluded ++ " |"
        /\ field_row name (mkField o None fields items keys values) level
           <> field_row name (mkField o (Some "") fields items keys values)
                level).
Proof.
  split; [reflexivity|]. split; [reflexivity|].
  intros name o fields items keys values level. split; [reflexivity|].
  unfold field_row. cbn [field_base field_type str_opt]. intros H.
  apply (sapp_inv_head "| ") in H.
  apply sapp_inv_head in H. apply (sapp_inv_head " | ") in H.
  discriminate H.
Qed.

End MoreSections.
